(** * Chunk allocation sequences of the metaspace allocator

    A shallow embedding of
    [src/hotspot/share/memory/metaspace/chunkAllocSequence.cpp]:
    the class [ConstantChunkAllocSequence], the eight hard-coded level
    arrays, the statically constructed sequence objects and the lookup
    [ChunkAllocSequence::alloc_sequence_by_space_type], followed by the
    properties of the growth policy they encode. *)

From Stdlib Require Import String ZArith List Bool Lia.
Import ListNotations.

Local Open Scope Z_scope.

(** ** Outcomes of running a piece of the C++ code *)

(** A call either returns a value, stops the VM with an error report
    ([assert], [ShouldNotReachHere]), or has no defined behaviour in
    C++ (a read outside an array, signed overflow, a null dereference). *)
Inductive outcome (A : Type) : Type :=
| Ret (a : A)
| Fatal (msg : string)
| Undefined.

Arguments Ret {A} a.
Arguments Fatal {A} msg.
Arguments Undefined {A}.

Definition bind {A B : Type} (c : outcome A) (k : A -> outcome B) : outcome B :=
  match c with
  | Ret a => k a
  | Fatal msg => Fatal msg
  | Undefined => Undefined
  end.

Declare Scope outcome_scope.
Delimit Scope outcome_scope with outcome.
Bind Scope outcome_scope with outcome.

Notation "x <- c ;; k" := (bind c (fun x => k))
  (at level 61, c at next level, right associativity) : outcome_scope.
Notation "c ;; k" := (bind c (fun _ => k))
  (at level 61, right associativity) : outcome_scope.

Local Open Scope outcome_scope.

(** ** The C++ [int] *)

Definition INT_MIN : Z := - 2 ^ 31.
Definition INT_MAX : Z := 2 ^ 31 - 1.

Definition in_int (z : Z) : bool := (INT_MIN <=? z) && (z <=? INT_MAX).

(** [a - b] on [int]: overflow of a signed subtraction is undefined. *)
Definition int_sub (a b : Z) : outcome Z :=
  if in_int (a - b) then Ret (a - b) else Undefined.

(** [array[i]] for an array object holding exactly the elements of
    [array]: a read outside the object is undefined. *)
Definition array_at {A : Type} (array : list A) (i : Z) : outcome A :=
  if i <? 0 then Undefined
  else match nth_error array (Z.to_nat i) with
       | Some a => Ret a
       | None => Undefined
       end.

(** [sizeof(array)/sizeof(element)]: the number of elements of an
    array, a [size_t]. *)
Definition array_count {A : Type} (array : list A) : Z :=
  Z.of_nat (List.length array).

(** The conversion of a [size_t] to [int] at a call: the value modulo
    [2 ^ 32], read as a two's complement number. *)
Definition int_of_size_t (z : Z) : Z :=
  (z + 2 ^ 31) mod 2 ^ 32 - 2 ^ 31.

(** ** Collaborators declared outside the file *)

(** Modelled from the spec: the [assert] macro of [utilities/debug.hpp],
    which is not among the sources.  A violated construction
    precondition is "a fatal programming-contract error at
    construction time (assertion failure), not a recoverable error". *)
Definition assert (p : bool) (msg : string) : outcome unit :=
  if p then Ret tt else Fatal msg.

(** Modelled from the spec: the [ShouldNotReachHere] macro of
    [utilities/debug.hpp], which is not among the sources.  Reaching it
    "must still fail loudly (abort/assert) if it ever occurs, never
    silently return a default". *)
Definition ShouldNotReachHere : outcome unit :=
  Fatal "ShouldNotReachHere".

Module chklvl.

(** Modelled from the spec: the chunk levels of
    [memory/metaspace/chunkLevel.hpp], which is not among the sources:
    "a small fixed set of admissible size classes (e.g., smallest=1K
    doubling upward to multi-megabyte)".  The level names used by the
    arrays below are [CHUNK_LEVEL_1K], [_2K], [_4K], [_16K], [_256K],
    [_1M] and [_4M]; the others fill in the doubling steps between
    them. *)
Inductive level : Set :=
| CHUNK_LEVEL_4M
| CHUNK_LEVEL_2M
| CHUNK_LEVEL_1M
| CHUNK_LEVEL_512K
| CHUNK_LEVEL_256K
| CHUNK_LEVEL_128K
| CHUNK_LEVEL_64K
| CHUNK_LEVEL_32K
| CHUNK_LEVEL_16K
| CHUNK_LEVEL_8K
| CHUNK_LEVEL_4K
| CHUNK_LEVEL_2K
| CHUNK_LEVEL_1K.

Definition K : Z := 1024.
Definition M : Z := K * K.

(** Modelled from the spec: the chunk size a level name stands for,
    in bytes; it gives the levels their total order. *)
Definition byte_size (l : level) : Z :=
  match l with
  | CHUNK_LEVEL_4M => 4 * M
  | CHUNK_LEVEL_2M => 2 * M
  | CHUNK_LEVEL_1M => 1 * M
  | CHUNK_LEVEL_512K => 512 * K
  | CHUNK_LEVEL_256K => 256 * K
  | CHUNK_LEVEL_128K => 128 * K
  | CHUNK_LEVEL_64K => 64 * K
  | CHUNK_LEVEL_32K => 32 * K
  | CHUNK_LEVEL_16K => 16 * K
  | CHUNK_LEVEL_8K => 8 * K
  | CHUNK_LEVEL_4K => 4 * K
  | CHUNK_LEVEL_2K => 2 * K
  | CHUNK_LEVEL_1K => 1 * K
  end.

End chklvl.

Definition chklvl_t : Set := chklvl.level.

(** Modelled from the spec: the enumeration [MetaspaceType], which is
    declared outside the sources.  The four named values are the ones
    the lookup recognizes; [OtherMetaspaceType] stands for any other
    value that an object of the enumeration type can hold. *)
Inductive MetaspaceType : Set :=
| StandardMetaspaceType
| BootMetaspaceType
| ClassMirrorHolderMetaspaceType
| ReflectionMetaspaceType
| OtherMetaspaceType (raw : Z).

Definition recognized (space_type : MetaspaceType) : bool :=
  match space_type with
  | OtherMetaspaceType _ => false
  | _ => true
  end.

(** The interface [ChunkAllocSequence] of
    [memory/metaspace/chunkAllocSequence.hpp]: its one virtual method. *)
Class ChunkAllocSequence (T : Type) : Type :=
  { get_next_chunk_level : T -> Z -> outcome chklvl_t }.

(** ** [class ConstantChunkAllocSequence] *)

Module ConstantChunkAllocSequence.

(** The array the object points to and its [int] element count. *)
Record t : Type := Build
  { _entries : list chklvl_t;
    _num_entries : Z }.

(** The constructor. *)
Definition new (array : list chklvl_t) (num_entries : Z) : outcome t :=
  let this := {| _entries := array; _num_entries := num_entries |} in
  assert (_num_entries this >? 0) "must not be empty.";;
  Ret this.

Definition get_next_chunk_level (this : t) (num_allocated : Z)
  : outcome chklvl_t :=
  if num_allocated >=? _num_entries this then
    (* Caller shall repeat last allocation *)
    last_index <- int_sub (_num_entries this) 1;;
    array_at (_entries this) last_index
  else
    array_at (_entries this) num_allocated.

(** What the code relies on without checking it: [_num_entries] is a
    positive [int] and [_entries] holds that many elements. *)
Definition well_formed (this : t) : Prop :=
  0 < _num_entries this <= INT_MAX
  /\ array_count (_entries this) = _num_entries this.

End ConstantChunkAllocSequence.

#[export] Instance ConstantChunkAllocSequence_sequence
  : ChunkAllocSequence ConstantChunkAllocSequence.t :=
  {| get_next_chunk_level := ConstantChunkAllocSequence.get_next_chunk_level |}.

(** ** The hard-coded chunk allocation sequences *)

Import chklvl.

Definition g_sequ_standard_non_class : list chklvl_t :=
  [ CHUNK_LEVEL_4K;
    CHUNK_LEVEL_4K;
    CHUNK_LEVEL_4K;
    CHUNK_LEVEL_4K;
    CHUNK_LEVEL_16K ].

Definition g_sequ_standard_class : list chklvl_t :=
  [ CHUNK_LEVEL_2K;
    CHUNK_LEVEL_2K;
    CHUNK_LEVEL_2K;
    CHUNK_LEVEL_2K;
    CHUNK_LEVEL_16K ].

Definition g_sequ_anon_non_class : list chklvl_t :=
  [ CHUNK_LEVEL_1K ].

Definition g_sequ_anon_class : list chklvl_t :=
  [ CHUNK_LEVEL_1K ].

Definition g_sequ_refl_non_class : list chklvl_t :=
  [ CHUNK_LEVEL_2K;
    CHUNK_LEVEL_1K ].

Definition g_sequ_refl_class : list chklvl_t :=
  [ CHUNK_LEVEL_1K ].

Definition g_sequ_boot_non_class : list chklvl_t :=
  [ CHUNK_LEVEL_4M;
    CHUNK_LEVEL_1M ].

Definition g_sequ_boot_class : list chklvl_t :=
  [ CHUNK_LEVEL_1M;
    CHUNK_LEVEL_256K ].

(** The static initializer that the macro expands to. *)
Definition DEFINE_CLASS_FOR_ARRAY (g_sequ_what : list chklvl_t)
  : outcome ConstantChunkAllocSequence.t :=
  ConstantChunkAllocSequence.new g_sequ_what
    (int_of_size_t (array_count g_sequ_what)).

Definition g_chunk_alloc_sequence_standard_non_class :=
  DEFINE_CLASS_FOR_ARRAY g_sequ_standard_non_class.
Definition g_chunk_alloc_sequence_standard_class :=
  DEFINE_CLASS_FOR_ARRAY g_sequ_standard_class.
Definition g_chunk_alloc_sequence_anon_non_class :=
  DEFINE_CLASS_FOR_ARRAY g_sequ_anon_non_class.
Definition g_chunk_alloc_sequence_anon_class :=
  DEFINE_CLASS_FOR_ARRAY g_sequ_anon_class.
Definition g_chunk_alloc_sequence_refl_non_class :=
  DEFINE_CLASS_FOR_ARRAY g_sequ_refl_non_class.
Definition g_chunk_alloc_sequence_refl_class :=
  DEFINE_CLASS_FOR_ARRAY g_sequ_refl_class.
Definition g_chunk_alloc_sequence_boot_non_class :=
  DEFINE_CLASS_FOR_ARRAY g_sequ_boot_non_class.
Definition g_chunk_alloc_sequence_boot_class :=
  DEFINE_CLASS_FOR_ARRAY g_sequ_boot_class.

(** ** Pointers to the sequence objects *)

(** The addresses of the eight static objects: [addr_what] is
    [&g_chunk_alloc_sequence_what]. *)
Inductive address : Set :=
| addr_standard_non_class
| addr_standard_class
| addr_anon_non_class
| addr_anon_class
| addr_refl_non_class
| addr_refl_class
| addr_boot_non_class
| addr_boot_class.

(** A [const ChunkAllocSequence*]: an address or the null pointer. *)
Definition pointer : Set := option address.
Definition NULL : pointer := None.

(** The object that lives at an address, as its initializer left it. *)
Definition object_at (a : address) : outcome ConstantChunkAllocSequence.t :=
  match a with
  | addr_standard_non_class => g_chunk_alloc_sequence_standard_non_class
  | addr_standard_class => g_chunk_alloc_sequence_standard_class
  | addr_anon_non_class => g_chunk_alloc_sequence_anon_non_class
  | addr_anon_class => g_chunk_alloc_sequence_anon_class
  | addr_refl_non_class => g_chunk_alloc_sequence_refl_non_class
  | addr_refl_class => g_chunk_alloc_sequence_refl_class
  | addr_boot_non_class => g_chunk_alloc_sequence_boot_non_class
  | addr_boot_class => g_chunk_alloc_sequence_boot_class
  end.

Definition deref (p : pointer) : outcome ConstantChunkAllocSequence.t :=
  match p with
  | Some a => object_at a
  | None => Undefined
  end.

(** ** [ChunkAllocSequence::alloc_sequence_by_space_type] *)

Definition alloc_sequence_by_space_type
  (space_type : MetaspaceType) (is_class : bool) : outcome pointer :=
  (if is_class then
     match space_type with
     | StandardMetaspaceType => Ret (Some addr_standard_class)
     | ReflectionMetaspaceType => Ret (Some addr_refl_class)
     | ClassMirrorHolderMetaspaceType => Ret (Some addr_anon_class)
     | BootMetaspaceType => Ret (Some addr_boot_non_class)
     | OtherMetaspaceType _ => ShouldNotReachHere;; Ret NULL
     end
   else
     match space_type with
     | StandardMetaspaceType => Ret (Some addr_standard_non_class)
     | ReflectionMetaspaceType => Ret (Some addr_refl_non_class)
     | ClassMirrorHolderMetaspaceType => Ret (Some addr_anon_non_class)
     | BootMetaspaceType => Ret (Some addr_boot_non_class)
     | OtherMetaspaceType _ => ShouldNotReachHere;; Ret NULL
     end).

(** ** The caller's use of the two operations *)

(** The sequence object the lookup hands out for a space type. *)
Definition sequence_for (space_type : MetaspaceType) (is_class : bool)
  : outcome ConstantChunkAllocSequence.t :=
  p <- alloc_sequence_by_space_type space_type is_class;;
  deref p.

(** [alloc_sequence_by_space_type(space_type, is_class)
       ->get_next_chunk_level(num_allocated)]. *)
Definition next_chunk_level_for
  (space_type : MetaspaceType) (is_class : bool) (num_allocated : Z)
  : outcome chklvl_t :=
  s <- sequence_for space_type is_class;;
  get_next_chunk_level s num_allocated.

(** An object with the given array and element count. *)
Definition table (array : list chklvl_t) (num_entries : Z)
  : ConstantChunkAllocSequence.t :=
  ConstantChunkAllocSequence.Build array num_entries.

(** ** The documented first ramp levels *)

(** The level each (space type, class flag) pair is documented to start
    with: the first entry of the array written for that pair.  It is
    what the lookup is compared against, not part of the code. *)
Definition documented_first_level
  (space_type : MetaspaceType) (is_class : bool) : option chklvl_t :=
  match space_type, is_class with
  | StandardMetaspaceType, false => Some CHUNK_LEVEL_4K
  | StandardMetaspaceType, true => Some CHUNK_LEVEL_2K
  | ReflectionMetaspaceType, false => Some CHUNK_LEVEL_2K
  | ReflectionMetaspaceType, true => Some CHUNK_LEVEL_1K
  | ClassMirrorHolderMetaspaceType, _ => Some CHUNK_LEVEL_1K
  | BootMetaspaceType, false => Some CHUNK_LEVEL_4M
  | BootMetaspaceType, true => Some CHUNK_LEVEL_1M
  | OtherMetaspaceType _, _ => None
  end.

(** * Properties *)

(** ** Arrays and [int] arithmetic *)

Lemma array_at_nth {A : Type} (array : list A) (i : Z) (d : A) :
  0 <= i < array_count array ->
  array_at array i = Ret (nth (Z.to_nat i) array d).
Proof.
  unfold array_at, array_count. intros [Hlo Hhi].
  destruct (i <? 0) eqn:Hneg.
  - apply Z.ltb_lt in Hneg. lia.
  - rewrite (nth_error_nth' array d) by lia. reflexivity.
Qed.

Lemma array_at_in_bounds {A : Type} (array : list A) (i : Z) (a : A) :
  array_at array i = Ret a -> 0 <= i < array_count array.
Proof.
  unfold array_at, array_count.
  destruct (i <? 0) eqn:Hneg; [discriminate|].
  apply Z.ltb_ge in Hneg.
  destruct (nth_error array (Z.to_nat i)) eqn:Hnth; [|discriminate].
  intros _. split; [exact Hneg|].
  assert (Hlt : (Z.to_nat i < List.length array)%nat).
  { apply nth_error_Some. rewrite Hnth. discriminate. }
  lia.
Qed.

Lemma nth_pred_length_last {A : Type} (l : list A) (d : A) :
  nth (List.length l - 1) l d = last l d.
Proof.
  induction l as [|a [|b l] IH]; try reflexivity.
  change (last (a :: b :: l) d) with (last (b :: l) d).
  rewrite <- IH. simpl. now rewrite Nat.sub_0_r.
Qed.

Lemma int_sub_one (n : Z) :
  0 < n <= INT_MAX -> int_sub n 1 = Ret (n - 1).
Proof.
  intros Hn. unfold int_sub, in_int.
  replace (INT_MIN <=? n - 1) with true
    by (symmetry; apply Z.leb_le; unfold INT_MIN; lia).
  replace (n - 1 <=? INT_MAX) with true
    by (symmetry; apply Z.leb_le; lia).
  reflexivity.
Qed.

(** ** The two branches of [get_next_chunk_level] *)

Module Import SequenceFacts.
Import ConstantChunkAllocSequence.

Lemma ramp_branch (s : t) (i : Z) :
  i < _num_entries s ->
  get_next_chunk_level s i = array_at (_entries s) i.
Proof.
  intros Hi. unfold get_next_chunk_level.
  destruct (i >=? _num_entries s) eqn:Hge; [|reflexivity].
  apply Z.geb_le in Hge. lia.
Qed.

Lemma plateau_branch (s : t) (i : Z) :
  0 < _num_entries s <= INT_MAX ->
  _num_entries s <= i ->
  get_next_chunk_level s i = array_at (_entries s) (_num_entries s - 1).
Proof.
  intros Hn Hi. unfold get_next_chunk_level.
  destruct (i >=? _num_entries s) eqn:Hge.
  - rewrite (int_sub_one _ Hn). reflexivity.
  - rewrite Z.geb_leb in Hge. apply Z.leb_gt in Hge. lia.
Qed.

(** On a well-formed table the function reads position
    [min num_allocated (_num_entries - 1)]. *)
Lemma clamped_read (s : t) (i : Z) (d : chklvl_t) :
  well_formed s -> 0 <= i ->
  get_next_chunk_level s i
  = Ret (nth (Z.to_nat (Z.min i (_num_entries s - 1))) (_entries s) d).
Proof.
  intros [Hn Hlen] Hi.
  destruct (Z.lt_ge_cases i (_num_entries s)) as [Hlt|Hge].
  - rewrite (ramp_branch _ _ Hlt), Z.min_l by lia.
    apply array_at_nth. lia.
  - rewrite (plateau_branch _ _ Hn Hge), Z.min_r by lia.
    apply array_at_nth. lia.
Qed.

Lemma new_positive (array : list chklvl_t) (n : Z) :
  0 < n -> new array n = Ret (Build array n).
Proof.
  intros Hn. unfold new; simpl.
  replace (n >? 0) with true; [reflexivity|].
  symmetry. rewrite Z.gtb_ltb. now apply Z.ltb_lt.
Qed.

Lemma new_not_positive (array : list chklvl_t) (n : Z) :
  n <= 0 -> new array n = Fatal "must not be empty.".
Proof.
  intros Hn. unfold new; simpl.
  replace (n >? 0) with false; [reflexivity|].
  symmetry. rewrite Z.gtb_ltb. now apply Z.ltb_ge.
Qed.

Lemma int_of_size_t_small (z : Z) :
  0 <= z <= INT_MAX -> int_of_size_t z = z.
Proof.
  unfold int_of_size_t, INT_MAX. intros Hz.
  rewrite Z.mod_small by lia. lia.
Qed.

(** The macro on a non-empty array whose element count fits [int]
    yields a well-formed object over that array. *)
Lemma defined_well_formed (array : list chklvl_t) :
  array <> [] -> array_count array <= INT_MAX ->
  DEFINE_CLASS_FOR_ARRAY array = Ret (Build array (array_count array))
  /\ well_formed (Build array (array_count array)).
Proof.
  intros Hne Hmax.
  assert (Hpos : 0 < array_count array).
  { unfold array_count. destruct array; [contradiction|simpl; lia]. }
  split.
  - unfold DEFINE_CLASS_FOR_ARRAY.
    rewrite int_of_size_t_small by lia. now apply new_positive.
  - unfold well_formed; simpl. lia.
Qed.

End SequenceFacts.

(** ** The objects behind the lookup *)

Lemma sequence_for_standard (is_class : bool) :
  sequence_for StandardMetaspaceType is_class
  = Ret (if is_class then table g_sequ_standard_class 5
         else table g_sequ_standard_non_class 5).
Proof. destruct is_class; reflexivity. Qed.

Lemma sequence_for_reflection (is_class : bool) :
  sequence_for ReflectionMetaspaceType is_class
  = Ret (if is_class then table g_sequ_refl_class 1
         else table g_sequ_refl_non_class 2).
Proof. destruct is_class; reflexivity. Qed.

Lemma sequence_for_class_mirror_holder (is_class : bool) :
  sequence_for ClassMirrorHolderMetaspaceType is_class
  = Ret (if is_class then table g_sequ_anon_class 1
         else table g_sequ_anon_non_class 1).
Proof. destruct is_class; reflexivity. Qed.

Lemma sequence_for_boot (is_class : bool) :
  sequence_for BootMetaspaceType is_class = Ret (table g_sequ_boot_non_class 2).
Proof. destruct is_class; reflexivity. Qed.

Lemma sequence_for_other (raw : Z) (is_class : bool) :
  sequence_for (OtherMetaspaceType raw) is_class = Fatal "ShouldNotReachHere".
Proof. destruct is_class; reflexivity. Qed.

Create HintDb registry discriminated.
#[export] Hint Resolve sequence_for_standard sequence_for_reflection
  sequence_for_class_mirror_holder sequence_for_boot : registry.

Lemma table_well_formed (array : list chklvl_t) (n : Z) :
  array_count array = n -> 0 < n <= INT_MAX ->
  ConstantChunkAllocSequence.well_formed (table array n).
Proof. intros Hc Hn. split; assumption. Qed.

Lemma exposed_well_formed (space_type : MetaspaceType) (is_class : bool) :
  recognized space_type = true ->
  exists s, sequence_for space_type is_class = Ret s
            /\ ConstantChunkAllocSequence.well_formed s.
Proof.
  intros Hrec.
  destruct space_type; try discriminate; destruct is_class;
    (eexists; split; [auto with registry|]);
    simpl; apply table_well_formed;
    solve [reflexivity | unfold INT_MAX; lia].
Qed.

(** The virtual call on an object handed out by the lookup runs the
    method of [ConstantChunkAllocSequence]. *)
Lemma next_chunk_level_for_dispatch
  (space_type : MetaspaceType) (is_class : bool) (i : Z)
  (s : ConstantChunkAllocSequence.t) :
  sequence_for space_type is_class = Ret s ->
  next_chunk_level_for space_type is_class i
  = ConstantChunkAllocSequence.get_next_chunk_level s i.
Proof. intros Hs. unfold next_chunk_level_for. rewrite Hs. reflexivity. Qed.

(** The level a recognized space type gets for a non-negative count:
    the entry at the count, clamped to the last position. *)
Lemma next_chunk_level_for_clamped
  (space_type : MetaspaceType) (is_class : bool) (i : Z)
  (s : ConstantChunkAllocSequence.t) (d : chklvl_t) :
  sequence_for space_type is_class = Ret s ->
  ConstantChunkAllocSequence.well_formed s -> 0 <= i ->
  next_chunk_level_for space_type is_class i
  = Ret (nth (Z.to_nat (Z.min i (ConstantChunkAllocSequence._num_entries s - 1)))
           (ConstantChunkAllocSequence._entries s) d).
Proof.
  intros Hs Hwf Hi.
  rewrite (next_chunk_level_for_dispatch _ _ _ _ Hs).
  now apply clamped_read.
Qed.

(** Settles [next_chunk_level_for] at a count [i] known to lie at or
    beyond position [k], the last one of the table in use. *)
Ltac plateau_at k :=
  match goal with
  | |- next_chunk_level_for ?ty ?c ?i = _ =>
      eapply eq_trans;
      [ eapply (next_chunk_level_for_clamped ty c i _ CHUNK_LEVEL_1K);
        [ auto with registry
        | simpl; apply table_well_formed; [reflexivity | unfold INT_MAX; lia]
        | lia ]
      | unfold table; simpl;
        replace (Z.min i k) with k by lia; reflexivity ]
  end.

(** Settles a goal about a count that is one of finitely many values. *)
Ltac by_cases_on i lo hi :=
  let H := fresh "Hcase" in
  assert (H : (Z.to_nat (i - lo) < Z.to_nat (hi - lo + 1))%nat) by lia;
  replace i with (lo + Z.of_nat (Z.to_nat (i - lo))) by lia;
  revert H; generalize (Z.to_nat (i - lo)); intros n H;
  repeat (destruct n as [|n]; [reflexivity|]); simpl in H; lia.

(** ** The clamp at the end of a table *)

(** C1: on every table (a non-empty array with its element count) and
    for every index [i >= length - 1], [get_next_chunk_level i] returns
    what [get_next_chunk_level (length - 1)] returns, and that is the
    last element of the array: past the explicit list the last element
    is repeated. *)
Theorem tail_clamp (s : ConstantChunkAllocSequence.t) (i : Z) :
  ConstantChunkAllocSequence.well_formed s ->
  ConstantChunkAllocSequence._num_entries s - 1 <= i ->
  ConstantChunkAllocSequence.get_next_chunk_level s i
  = ConstantChunkAllocSequence.get_next_chunk_level s
      (ConstantChunkAllocSequence._num_entries s - 1)
  /\ ConstantChunkAllocSequence.get_next_chunk_level s i
     = Ret (last (ConstantChunkAllocSequence._entries s) CHUNK_LEVEL_1K).
Proof.
  intros Hwf Hi.
  pose proof Hwf as [Hn Hlen].
  assert (Hread : forall j, ConstantChunkAllocSequence._num_entries s - 1 <= j ->
            ConstantChunkAllocSequence.get_next_chunk_level s j
            = Ret (last (ConstantChunkAllocSequence._entries s) CHUNK_LEVEL_1K)).
  { intros j Hj.
    rewrite (clamped_read s j CHUNK_LEVEL_1K Hwf) by lia.
    rewrite Z.min_r by lia.
    rewrite <- nth_pred_length_last. f_equal. f_equal.
    unfold array_count in Hlen. lia. }
  split.
  - rewrite (Hread i Hi). symmetry. apply Hread. lia.
  - apply Hread, Hi.
Qed.

Lemma tail_clamp_witness :
  ConstantChunkAllocSequence.well_formed (table g_sequ_refl_non_class 2)
  /\ ConstantChunkAllocSequence.get_next_chunk_level
       (table g_sequ_refl_non_class 2) 7
     = ConstantChunkAllocSequence.get_next_chunk_level
         (table g_sequ_refl_non_class 2) 1.
Proof.
  assert (Hwf : ConstantChunkAllocSequence.well_formed
                  (table g_sequ_refl_non_class 2)).
  { apply table_well_formed; [reflexivity | unfold INT_MAX; lia]. }
  split; [exact Hwf|].
  apply (tail_clamp (table g_sequ_refl_non_class 2) 7 Hwf). simpl. lia.
Defined.

(** C9: with [num_allocated >= 0] and [num_entries >= 1] (an [int]),
    the one array read of [get_next_chunk_level] is at an index in
    [[0, num_entries - 1]]; so on an array of [num_entries] elements
    the read succeeds and the function returns a level. *)
Theorem read_within_bounds (s : ConstantChunkAllocSequence.t) (i : Z) :
  0 <= i ->
  1 <= ConstantChunkAllocSequence._num_entries s <= INT_MAX ->
  exists k,
    0 <= k <= ConstantChunkAllocSequence._num_entries s - 1
    /\ ConstantChunkAllocSequence.get_next_chunk_level s i
       = array_at (ConstantChunkAllocSequence._entries s) k
    /\ (array_count (ConstantChunkAllocSequence._entries s)
        = ConstantChunkAllocSequence._num_entries s ->
        exists lvl,
          ConstantChunkAllocSequence.get_next_chunk_level s i = Ret lvl).
Proof.
  intros Hi Hn.
  destruct (Z.lt_ge_cases i (ConstantChunkAllocSequence._num_entries s))
    as [Hlt|Hge].
  - exists i. rewrite (ramp_branch s i Hlt).
    split; [lia|]. split; [reflexivity|].
    intros Hlen. eexists.
    apply (array_at_nth _ _ CHUNK_LEVEL_1K).
    unfold array_count, chklvl_t in *. lia.
  - exists (ConstantChunkAllocSequence._num_entries s - 1).
    rewrite (plateau_branch s i) by lia.
    split; [lia|]. split; [reflexivity|].
    intros Hlen. eexists.
    apply (array_at_nth _ _ CHUNK_LEVEL_1K).
    unfold array_count, chklvl_t in *. lia.
Qed.

Lemma read_within_bounds_witness :
  exists lvl,
    ConstantChunkAllocSequence.get_next_chunk_level
      (table g_sequ_standard_class 5) 11 = Ret lvl.
Proof.
  destruct (read_within_bounds (table g_sequ_standard_class 5) 11)
    as [k [_ [_ Hret]]].
  - lia.
  - unfold INT_MAX. simpl. lia.
  - apply Hret. reflexivity.
Defined.

(** ** Construction *)

(** C8: the constructor stops the VM on an element count that is not
    positive (an empty table among them) and builds the object on a
    positive one; every object the lookup hands out for a recognized
    space type was built by it, holds at least one entry and has as
    many entries as its count says. *)
Theorem construction_contract
  (array : list chklvl_t) (empty positive : Z)
  (space_type : MetaspaceType) (is_class : bool) :
  empty <= 0 -> 0 < positive -> recognized space_type = true ->
  ConstantChunkAllocSequence.new array empty = Fatal "must not be empty."
  /\ ConstantChunkAllocSequence.new array positive
     = Ret (ConstantChunkAllocSequence.Build array positive)
  /\ exists a s,
       alloc_sequence_by_space_type space_type is_class = Ret (Some a)
       /\ object_at a
          = DEFINE_CLASS_FOR_ARRAY (ConstantChunkAllocSequence._entries s)
       /\ object_at a = Ret s
       /\ 1 <= ConstantChunkAllocSequence._num_entries s
       /\ array_count (ConstantChunkAllocSequence._entries s)
          = ConstantChunkAllocSequence._num_entries s.
Proof.
  intros Hempty Hpositive Hrec.
  split; [now apply new_not_positive|].
  split; [now apply new_positive|].
  destruct space_type; try discriminate; destruct is_class;
    do 2 eexists; (split; [reflexivity|]);
    (split; [|split; [reflexivity|split]]);
    vm_compute; first [reflexivity | discriminate].
Qed.

Lemma construction_contract_witness :
  ConstantChunkAllocSequence.new [] 0 = Fatal "must not be empty."
  /\ ConstantChunkAllocSequence.new [CHUNK_LEVEL_1K] 1
     = Ret (ConstantChunkAllocSequence.Build [CHUNK_LEVEL_1K] 1).
Proof.
  destruct (construction_contract [] 0 1 BootMetaspaceType true)
    as [Hzero _]; [lia | lia | reflexivity |].
  destruct (construction_contract [CHUNK_LEVEL_1K] 0 1
              ReflectionMetaspaceType false)
    as [_ [Hone _]]; [lia | lia | reflexivity |].
  split; [exact Hzero | exact Hone].
Defined.

(** ** The lookup *)

(** C2: for the seven pairs other than (boot, class) the lookup returns
    a non-null pointer to an object whose [get_next_chunk_level 0] is
    the documented first level of the pair.  For (boot, class) it
    returns a non-null pointer too, but to the boot non-class object:
    index 0 gives 4M, where the documented first level, the first entry
    of the boot class array, is 1M; the boot class object is handed out
    for no input at all. *)
Theorem first_level_of_each_pair :
  Forall
    (fun pair : MetaspaceType * bool =>
       exists a s l,
         alloc_sequence_by_space_type (fst pair) (snd pair) = Ret (Some a)
         /\ object_at a = Ret s
         /\ get_next_chunk_level s 0 = Ret l
         /\ documented_first_level (fst pair) (snd pair) = Some l)
    [ (StandardMetaspaceType, false); (StandardMetaspaceType, true);
      (ReflectionMetaspaceType, false); (ReflectionMetaspaceType, true);
      (ClassMirrorHolderMetaspaceType, false);
      (ClassMirrorHolderMetaspaceType, true);
      (BootMetaspaceType, false) ]
  /\ alloc_sequence_by_space_type BootMetaspaceType true
     = Ret (Some addr_boot_non_class)
  /\ next_chunk_level_for BootMetaspaceType true 0 = Ret CHUNK_LEVEL_4M
  /\ documented_first_level BootMetaspaceType true = Some CHUNK_LEVEL_1M
  /\ array_at g_sequ_boot_class 0 = Ret CHUNK_LEVEL_1M
  /\ (exists s, object_at addr_boot_class = Ret s
                /\ get_next_chunk_level s 0 = Ret CHUNK_LEVEL_1M)
  /\ forall space_type is_class,
       alloc_sequence_by_space_type space_type is_class
       <> Ret (Some addr_boot_class).
Proof.
  split.
  { repeat constructor; do 3 eexists; repeat split; reflexivity. }
  repeat split; try reflexivity.
  - eexists; split; reflexivity.
  - intros space_type is_class.
    destruct space_type, is_class; discriminate.
Qed.

(** C3: for the boot space type the lookup returns the same object,
    the non-class one, whatever the class flag, while each of the three
    other space types gets two different objects for the two flags. *)
Theorem boot_lookup_ignores_flag :
  alloc_sequence_by_space_type BootMetaspaceType true
  = alloc_sequence_by_space_type BootMetaspaceType false
  /\ alloc_sequence_by_space_type BootMetaspaceType true
     = Ret (Some addr_boot_non_class)
  /\ alloc_sequence_by_space_type StandardMetaspaceType true
     <> alloc_sequence_by_space_type StandardMetaspaceType false
  /\ alloc_sequence_by_space_type ReflectionMetaspaceType true
     <> alloc_sequence_by_space_type ReflectionMetaspaceType false
  /\ alloc_sequence_by_space_type ClassMirrorHolderMetaspaceType true
     <> alloc_sequence_by_space_type ClassMirrorHolderMetaspaceType false.
Proof. repeat split; try reflexivity; discriminate. Qed.

(** ** The ramps of the space types *)

(** C4: the standard non-class sequence yields 4K, the smallest level
    of its array, for every index from 0 to 3 and the one larger level
    16K for every index from 4 on. *)
Theorem standard_non_class_ramp (i j : Z) :
  0 <= i <= 3 -> 4 <= j ->
  next_chunk_level_for StandardMetaspaceType false i = Ret CHUNK_LEVEL_4K
  /\ next_chunk_level_for StandardMetaspaceType false j = Ret CHUNK_LEVEL_16K
  /\ (exists s, sequence_for StandardMetaspaceType false = Ret s
        /\ Forall (fun l => byte_size CHUNK_LEVEL_4K <= byte_size l)
             (ConstantChunkAllocSequence._entries s))
  /\ byte_size CHUNK_LEVEL_4K < byte_size CHUNK_LEVEL_16K.
Proof.
  intros Hi Hj. split; [|split; [|split]].
  - by_cases_on i 0 3.
  - plateau_at 4.
  - eexists. split; [reflexivity|].
    repeat constructor; discriminate.
  - reflexivity.
Qed.

Lemma standard_non_class_ramp_witness :
  (0 <= 3 <= 3 /\ 4 <= 4)
  /\ next_chunk_level_for StandardMetaspaceType false 3 = Ret CHUNK_LEVEL_4K
  /\ next_chunk_level_for StandardMetaspaceType false 4 = Ret CHUNK_LEVEL_16K.
Proof.
  split; [lia|].
  destruct (standard_non_class_ramp 3 4) as [Hramp [Hplateau _]];
    [lia | lia |].
  split; [exact Hramp | exact Hplateau].
Defined.

(** C5: for the boot space type, with either class flag, index 0
    yields 4M, the largest level of the array in use, and every index
    from 1 on yields 1M, the largest level of that array below 4M. *)
Theorem boot_ramp (is_class : bool) (i : Z) :
  1 <= i ->
  next_chunk_level_for BootMetaspaceType is_class 0 = Ret CHUNK_LEVEL_4M
  /\ next_chunk_level_for BootMetaspaceType is_class i = Ret CHUNK_LEVEL_1M
  /\ (exists s, sequence_for BootMetaspaceType is_class = Ret s
        /\ Forall (fun l => byte_size l <= byte_size CHUNK_LEVEL_4M)
             (ConstantChunkAllocSequence._entries s)
        /\ Forall (fun l => byte_size l < byte_size CHUNK_LEVEL_4M ->
                            byte_size l <= byte_size CHUNK_LEVEL_1M)
             (ConstantChunkAllocSequence._entries s))
  /\ byte_size CHUNK_LEVEL_1M < byte_size CHUNK_LEVEL_4M.
Proof.
  intros Hi. split; [|split; [|split]].
  - destruct is_class; reflexivity.
  - plateau_at 1.
  - eexists. split; [apply sequence_for_boot|].
    split; repeat constructor; simpl; intros; try discriminate;
      unfold byte_size, M, K in *; lia.
  - reflexivity.
Qed.

Lemma boot_ramp_witness :
  1 <= 6
  /\ next_chunk_level_for BootMetaspaceType true 0 = Ret CHUNK_LEVEL_4M
  /\ next_chunk_level_for BootMetaspaceType true 6 = Ret CHUNK_LEVEL_1M.
Proof.
  split; [lia|].
  destruct (boot_ramp true 6) as [Hfirst [Hrest _]]; [lia|].
  split; [exact Hfirst | exact Hrest].
Defined.

(** C6: for the class-mirror-holder (anonymous) space type, with either
    class flag, index 0 and every later index yield the one level 1K:
    the array in use has a single entry. *)
Theorem anon_has_no_ramp (is_class : bool) (i : Z) :
  0 <= i ->
  next_chunk_level_for ClassMirrorHolderMetaspaceType is_class i
  = Ret CHUNK_LEVEL_1K
  /\ next_chunk_level_for ClassMirrorHolderMetaspaceType is_class i
     = next_chunk_level_for ClassMirrorHolderMetaspaceType is_class 0
  /\ exists s, sequence_for ClassMirrorHolderMetaspaceType is_class = Ret s
       /\ ConstantChunkAllocSequence._entries s = [CHUNK_LEVEL_1K]
       /\ ConstantChunkAllocSequence._num_entries s = 1.
Proof.
  intros Hi.
  assert (Hlevel : next_chunk_level_for ClassMirrorHolderMetaspaceType
                     is_class i = Ret CHUNK_LEVEL_1K).
  { destruct is_class; plateau_at 0. }
  split; [exact Hlevel|]. split.
  - rewrite Hlevel. destruct is_class; reflexivity.
  - destruct is_class; eexists; (split; [reflexivity|]);
      split; reflexivity.
Qed.

Lemma anon_has_no_ramp_witness :
  0 <= 12
  /\ next_chunk_level_for ClassMirrorHolderMetaspaceType false 12
     = Ret CHUNK_LEVEL_1K.
Proof.
  split; [lia|].
  apply (anon_has_no_ramp false 12). lia.
Defined.

(** C10: for the class-mirror-holder (anonymous) space type the two
    class flags select two different objects, each over a one-entry 1K
    array, and for every index [i >= 0] the two yield the same level:
    both calls return 1K. *)
Theorem anon_flag_is_irrelevant (i : Z) :
  0 <= i ->
  next_chunk_level_for ClassMirrorHolderMetaspaceType true i
  = Ret CHUNK_LEVEL_1K
  /\ next_chunk_level_for ClassMirrorHolderMetaspaceType false i
     = Ret CHUNK_LEVEL_1K
  /\ next_chunk_level_for ClassMirrorHolderMetaspaceType true i
     = next_chunk_level_for ClassMirrorHolderMetaspaceType false i
  /\ alloc_sequence_by_space_type ClassMirrorHolderMetaspaceType true
     = Ret (Some addr_anon_class)
  /\ alloc_sequence_by_space_type ClassMirrorHolderMetaspaceType false
     = Ret (Some addr_anon_non_class)
  /\ addr_anon_class <> addr_anon_non_class
  /\ object_at addr_anon_class = Ret (table g_sequ_anon_class 1)
  /\ object_at addr_anon_non_class = Ret (table g_sequ_anon_non_class 1)
  /\ g_sequ_anon_class = [CHUNK_LEVEL_1K]
  /\ g_sequ_anon_non_class = [CHUNK_LEVEL_1K].
Proof.
  intros Hi.
  assert (Hclass : next_chunk_level_for ClassMirrorHolderMetaspaceType
                     true i = Ret CHUNK_LEVEL_1K) by plateau_at 0.
  assert (Hnon : next_chunk_level_for ClassMirrorHolderMetaspaceType
                   false i = Ret CHUNK_LEVEL_1K) by plateau_at 0.
  split; [exact Hclass|]. split; [exact Hnon|].
  split; [now rewrite Hclass, Hnon|].
  repeat split; try reflexivity. discriminate.
Qed.

Lemma anon_flag_is_irrelevant_witness :
  0 <= 5
  /\ next_chunk_level_for ClassMirrorHolderMetaspaceType true 5
     = Ret CHUNK_LEVEL_1K
  /\ next_chunk_level_for ClassMirrorHolderMetaspaceType false 5
     = Ret CHUNK_LEVEL_1K.
Proof.
  split; [lia|].
  destruct (anon_flag_is_irrelevant 5) as [Hclass [Hnon _]]; [lia|].
  split; [exact Hclass | exact Hnon].
Defined.

(** C7, as the code has it: the reflection non-class sequence is a
    two-step ramp, an array of exactly two entries 2K and 1K, so index
    0 yields 2K and every index from 1 on yields 1K; the reflection
    class sequence is an array of one entry and yields 1K at index 0
    and at every later index. *)
Theorem reflection_ramps (i : Z) :
  1 <= i ->
  (exists s, sequence_for ReflectionMetaspaceType false = Ret s
     /\ ConstantChunkAllocSequence._entries s
        = [CHUNK_LEVEL_2K; CHUNK_LEVEL_1K]
     /\ ConstantChunkAllocSequence._num_entries s = 2)
  /\ next_chunk_level_for ReflectionMetaspaceType false 0 = Ret CHUNK_LEVEL_2K
  /\ next_chunk_level_for ReflectionMetaspaceType false i = Ret CHUNK_LEVEL_1K
  /\ (exists s, sequence_for ReflectionMetaspaceType true = Ret s
        /\ ConstantChunkAllocSequence._entries s = [CHUNK_LEVEL_1K]
        /\ ConstantChunkAllocSequence._num_entries s = 1)
  /\ next_chunk_level_for ReflectionMetaspaceType true 0 = Ret CHUNK_LEVEL_1K
  /\ next_chunk_level_for ReflectionMetaspaceType true i = Ret CHUNK_LEVEL_1K.
Proof.
  intros Hi.
  split; [eexists; repeat split; reflexivity|].
  split; [reflexivity|].
  split; [plateau_at 1|].
  split; [eexists; repeat split; reflexivity|].
  split; [reflexivity|].
  plateau_at 0.
Qed.

Lemma reflection_ramps_witness :
  1 <= 3
  /\ next_chunk_level_for ReflectionMetaspaceType false 3 = Ret CHUNK_LEVEL_1K
  /\ next_chunk_level_for ReflectionMetaspaceType true 3 = Ret CHUNK_LEVEL_1K.
Proof.
  split; [lia|].
  destruct (reflection_ramps 3) as [_ [_ [Hnon [_ [_ Hcls]]]]]; [lia|].
  split; [exact Hnon | exact Hcls].
Defined.

(** C7 as stated fails: not both reflection sequences have exactly two
    entries, the one for class data has one. *)
Lemma reflection_class_is_not_two_step :
  ~ (forall is_class : bool,
       exists s, sequence_for ReflectionMetaspaceType is_class = Ret s
                 /\ ConstantChunkAllocSequence._num_entries s = 2
                 /\ array_count (ConstantChunkAllocSequence._entries s) = 2).
Proof.
  intros Hall. destruct (Hall true) as [s [Hs [Hn _]]].
  rewrite sequence_for_reflection in Hs.
  injection Hs as <-. discriminate Hn.
Qed.

(** * Further properties of the code *)

(** ** Reads outside the array *)

Lemma array_at_negative {A : Type} (array : list A) (i : Z) :
  i < 0 -> array_at array i = Undefined.
Proof.
  intros Hi. unfold array_at.
  destruct (i <? 0) eqn:Hneg; [reflexivity|].
  apply Z.ltb_ge in Hneg. lia.
Qed.

Lemma array_at_beyond {A : Type} (array : list A) (i : Z) :
  array_count array <= i -> array_at array i = Undefined.
Proof.
  intros Hi. unfold array_at, array_count in *.
  destruct (i <? 0); [reflexivity|].
  replace (nth_error array (Z.to_nat i)) with (@None A); [reflexivity|].
  symmetry. apply nth_error_None. lia.
Qed.

Lemma array_at_of_nat {A : Type} (array : list A) (k : nat) (a : A) :
  nth_error array k = Some a -> array_at array (Z.of_nat k) = Ret a.
Proof.
  intros Hk. unfold array_at.
  destruct (Z.of_nat k <? 0) eqn:Hneg.
  - apply Z.ltb_lt in Hneg. lia.
  - rewrite Nat2Z.id, Hk. reflexivity.
Qed.

Lemma last_read_negative (array : list chklvl_t) (n : Z) :
  n <= 0 ->
  (last_index <- int_sub n 1;; array_at array last_index) = Undefined.
Proof.
  intros Hn. unfold int_sub.
  destruct (in_int (n - 1)); [|reflexivity].
  simpl. apply array_at_negative. lia.
Qed.

Lemma negative_count_read (s : ConstantChunkAllocSequence.t) (i : Z) :
  i < 0 -> ConstantChunkAllocSequence.get_next_chunk_level s i = Undefined.
Proof.
  intros Hi. unfold ConstantChunkAllocSequence.get_next_chunk_level.
  destruct (i >=? ConstantChunkAllocSequence._num_entries s) eqn:Hge.
  - apply Z.geb_le in Hge. apply last_read_negative. lia.
  - now apply array_at_negative.
Qed.

(** X1: [get_next_chunk_level] does not check its argument: on any
    object at all, a negative [num_allocated] makes it read in front of
    the array (or in front of position 0 through [_num_entries - 1]),
    so the call has no defined result. *)
Theorem negative_count_is_undefined
  (s : ConstantChunkAllocSequence.t) (num_allocated : Z) :
  num_allocated < 0 ->
  ConstantChunkAllocSequence.get_next_chunk_level s num_allocated = Undefined.
Proof. exact (negative_count_read s num_allocated). Qed.

Lemma negative_count_is_undefined_witness :
  - 1 < 0
  /\ ConstantChunkAllocSequence.get_next_chunk_level
       (table g_sequ_boot_non_class 2) (- 1) = Undefined.
Proof.
  split; [lia|].
  apply (negative_count_is_undefined (table g_sequ_boot_non_class 2) (- 1)).
  lia.
Defined.

(** X2: the query relies on the constructor's assertion: on an object
    whose [_num_entries] is not positive, every call, whatever the
    index, reads at a negative position (or overflows computing it) and
    has no defined result. *)
Theorem unasserted_count_is_undefined
  (s : ConstantChunkAllocSequence.t) (num_allocated : Z) :
  ConstantChunkAllocSequence._num_entries s <= 0 ->
  ConstantChunkAllocSequence.get_next_chunk_level s num_allocated = Undefined.
Proof.
  intros Hn. unfold ConstantChunkAllocSequence.get_next_chunk_level.
  destruct (num_allocated >=? ConstantChunkAllocSequence._num_entries s)
    eqn:Hge.
  - now apply last_read_negative.
  - rewrite Z.geb_leb in Hge. apply Z.leb_gt in Hge.
    apply array_at_negative. lia.
Qed.

Lemma unasserted_count_is_undefined_witness :
  0 <= 0
  /\ ConstantChunkAllocSequence.get_next_chunk_level
       (table g_sequ_anon_class 0) 0 = Undefined.
Proof.
  split; [lia|].
  apply (unasserted_count_is_undefined (table g_sequ_anon_class 0) 0).
  simpl. lia.
Defined.

(** X3: the constructor checks the count against zero only, not
    against the array: with a count larger than the array it still
    builds the object, and on that object every index at or past the
    end of the array is read out of bounds. *)
Theorem count_beyond_array_is_undefined
  (array : list chklvl_t) (num_entries num_allocated : Z) :
  array_count array < num_entries -> num_entries <= INT_MAX ->
  array_count array <= num_allocated ->
  ConstantChunkAllocSequence.new array num_entries
  = Ret (ConstantChunkAllocSequence.Build array num_entries)
  /\ ConstantChunkAllocSequence.get_next_chunk_level
       (ConstantChunkAllocSequence.Build array num_entries) num_allocated
     = Undefined.
Proof.
  intros Hcount Hmax Hi.
  assert (Hpos : 0 < num_entries) by (unfold array_count in *; lia).
  split; [now apply new_positive|].
  destruct (Z.lt_ge_cases num_allocated num_entries) as [Hlt|Hge].
  - rewrite ramp_branch by exact Hlt. now apply array_at_beyond.
  - rewrite plateau_branch by (simpl; lia).
    apply array_at_beyond. simpl. lia.
Qed.

Lemma count_beyond_array_is_undefined_witness :
  (array_count [CHUNK_LEVEL_1K] < 2 /\ 2 <= INT_MAX
   /\ array_count [CHUNK_LEVEL_1K] <= 1)
  /\ ConstantChunkAllocSequence.get_next_chunk_level
       (ConstantChunkAllocSequence.Build [CHUNK_LEVEL_1K] 2) 1 = Undefined.
Proof.
  assert (H1 : array_count [CHUNK_LEVEL_1K] < 2) by (vm_compute; reflexivity).
  assert (H2 : 2 <= INT_MAX) by (vm_compute; discriminate).
  assert (H3 : array_count [CHUNK_LEVEL_1K] <= 1)
    by (vm_compute; discriminate).
  split; [repeat split; assumption|].
  apply (count_beyond_array_is_undefined [CHUNK_LEVEL_1K] 2 1 H1 H2 H3).
Defined.

(** ** From the array to the levels handed out *)

(** X4: the macro on an empty array stops the VM in the constructor's
    assertion; on a non-empty array whose element count fits [int] it
    builds an object over that array whose count is the array's element
    count, which is well formed. *)
Theorem macro_on_array (first : chklvl_t) (rest : list chklvl_t) :
  array_count (first :: rest) <= INT_MAX ->
  DEFINE_CLASS_FOR_ARRAY [] = Fatal "must not be empty."
  /\ DEFINE_CLASS_FOR_ARRAY (first :: rest)
     = Ret (ConstantChunkAllocSequence.Build (first :: rest)
              (array_count (first :: rest)))
  /\ ConstantChunkAllocSequence.well_formed
       (ConstantChunkAllocSequence.Build (first :: rest)
          (array_count (first :: rest))).
Proof.
  intros Hmax. split; [reflexivity|].
  apply defined_well_formed; [discriminate | exact Hmax].
Qed.

Lemma macro_on_array_witness :
  array_count [CHUNK_LEVEL_4M; CHUNK_LEVEL_1M] <= INT_MAX
  /\ DEFINE_CLASS_FOR_ARRAY [CHUNK_LEVEL_4M; CHUNK_LEVEL_1M]
     = Ret (ConstantChunkAllocSequence.Build
              [CHUNK_LEVEL_4M; CHUNK_LEVEL_1M] 2).
Proof.
  assert (Hmax : array_count [CHUNK_LEVEL_4M; CHUNK_LEVEL_1M] <= INT_MAX)
    by (vm_compute; discriminate).
  split; [exact Hmax|].
  exact (proj1 (proj2 (macro_on_array CHUNK_LEVEL_4M [CHUNK_LEVEL_1M] Hmax))).
Defined.

(** X5: what is written at position [k] of an array is what the object
    the macro builds from it answers for [num_allocated = k]: inside
    the explicit list the query is plain indexing. *)
Theorem entry_read_back
  (array : list chklvl_t) (k : nat) (lvl : chklvl_t) :
  array_count array <= INT_MAX ->
  nth_error array k = Some lvl ->
  (s <- DEFINE_CLASS_FOR_ARRAY array;;
   ConstantChunkAllocSequence.get_next_chunk_level s (Z.of_nat k))
  = Ret lvl.
Proof.
  intros Hmax Hk.
  assert (Hne : array <> []) by (intros ->; destruct k; discriminate).
  destruct (defined_well_formed array Hne Hmax) as [Hdef _].
  rewrite Hdef. simpl.
  assert (Hlt : (k < List.length array)%nat).
  { apply nth_error_Some. rewrite Hk. discriminate. }
  rewrite ramp_branch by (simpl; unfold array_count; lia).
  now apply array_at_of_nat.
Qed.

Lemma entry_read_back_witness :
  (s <- DEFINE_CLASS_FOR_ARRAY g_sequ_boot_class;;
   ConstantChunkAllocSequence.get_next_chunk_level s (Z.of_nat 1))
  = Ret CHUNK_LEVEL_256K.
Proof.
  apply (entry_read_back g_sequ_boot_class 1 CHUNK_LEVEL_256K).
  - vm_compute. discriminate.
  - reflexivity.
Defined.

(** X6: on a well-formed object the levels the query can return are
    exactly the entries of its array: it returns nothing that is not
    written in the array, and every entry is returned for some index. *)
Theorem levels_are_the_entries
  (s : ConstantChunkAllocSequence.t) (lvl : chklvl_t) :
  ConstantChunkAllocSequence.well_formed s ->
  (In lvl (ConstantChunkAllocSequence._entries s)
   <-> exists i, ConstantChunkAllocSequence.get_next_chunk_level s i = Ret lvl).
Proof.
  intros Hwf. pose proof Hwf as [Hn Hlen]. unfold array_count in Hlen.
  split.
  - intros Hin. apply In_nth_error in Hin as [k Hk].
    exists (Z.of_nat k).
    assert (Hlt : (k < List.length (ConstantChunkAllocSequence._entries s))%nat).
    { apply nth_error_Some. rewrite Hk. discriminate. }
    rewrite ramp_branch by (unfold chklvl_t in *; lia).
    now apply array_at_of_nat.
  - intros [i Hi].
    destruct (Z.lt_ge_cases i 0) as [Hneg|Hnonneg].
    + rewrite (negative_count_read s i Hneg) in Hi. discriminate.
    + rewrite (clamped_read s i lvl Hwf Hnonneg) in Hi.
      injection Hi as <-. apply nth_In. unfold chklvl_t in *. lia.
Qed.

Lemma levels_are_the_entries_witness :
  exists i,
    ConstantChunkAllocSequence.get_next_chunk_level
      (table g_sequ_standard_class 5) i = Ret CHUNK_LEVEL_16K.
Proof.
  assert (Hwf : ConstantChunkAllocSequence.well_formed
                  (table g_sequ_standard_class 5)).
  { apply table_well_formed; [reflexivity | unfold INT_MAX; lia]. }
  apply (levels_are_the_entries (table g_sequ_standard_class 5)
           CHUNK_LEVEL_16K Hwf).
  simpl. tauto.
Defined.

(** ** The lookup as a whole *)

(** X7: the lookup never returns the null pointer: for each of the
    four space types of the switch it returns the address of an object,
    and for any other value it stops in [ShouldNotReachHere] before the
    final [return NULL]. *)
Theorem lookup_never_null (space_type : MetaspaceType) (is_class : bool) :
  alloc_sequence_by_space_type space_type is_class <> Ret NULL
  /\ ((recognized space_type = true
       /\ exists a,
            alloc_sequence_by_space_type space_type is_class = Ret (Some a))
      \/ (recognized space_type = false
          /\ alloc_sequence_by_space_type space_type is_class
             = Fatal "ShouldNotReachHere")).
Proof.
  split.
  - destruct space_type, is_class; discriminate.
  - destruct space_type, is_class;
      first [ right; split; reflexivity
            | left; split; [reflexivity | eexists; reflexivity] ].
Qed.

(** X8: two calls of the lookup, the first with one of the four space
    types of the switch, return the same object only for the same space
    type, and then only for the same class flag or for the boot type:
    no other two pairs share an object. *)
Theorem lookup_shares_only_boot
  (space_type space_type' : MetaspaceType) (is_class is_class' : bool) :
  recognized space_type = true ->
  alloc_sequence_by_space_type space_type is_class
  = alloc_sequence_by_space_type space_type' is_class' ->
  space_type = space_type'
  /\ (is_class = is_class' \/ space_type = BootMetaspaceType).
Proof.
  intros Hrec Heq.
  destruct space_type; try discriminate Hrec;
    destruct space_type', is_class, is_class';
    try discriminate Heq; split; auto.
Qed.

Lemma lookup_shares_only_boot_witness :
  BootMetaspaceType = BootMetaspaceType
  /\ (true = false \/ BootMetaspaceType = BootMetaspaceType).
Proof.
  apply (lookup_shares_only_boot BootMetaspaceType BootMetaspaceType
           true false); reflexivity.
Defined.

(** X9: looking a sequence up and asking it for the next level returns
    a level exactly when the space type is one of the four of the
    switch and the count is not negative. *)
Theorem caller_succeeds_iff
  (space_type : MetaspaceType) (is_class : bool) (num_allocated : Z) :
  (exists lvl,
     next_chunk_level_for space_type is_class num_allocated = Ret lvl)
  <-> recognized space_type = true /\ 0 <= num_allocated.
Proof.
  split.
  - intros [lvl Hlvl].
    destruct (recognized space_type) eqn:Hrec.
    + split; [reflexivity|].
      destruct (exposed_well_formed space_type is_class Hrec) as [s [Hs _]].
      rewrite (next_chunk_level_for_dispatch _ _ _ _ Hs) in Hlvl.
      destruct (Z.lt_ge_cases num_allocated 0) as [Hneg|Hnonneg];
        [|exact Hnonneg].
      rewrite (negative_count_read s _ Hneg) in Hlvl. discriminate.
    + destruct space_type; try discriminate Hrec.
      unfold next_chunk_level_for in Hlvl.
      rewrite sequence_for_other in Hlvl. discriminate.
  - intros [Hrec Hi].
    destruct (exposed_well_formed space_type is_class Hrec) as [s [Hs Hwf]].
    eexists.
    apply (next_chunk_level_for_clamped _ _ _ s CHUNK_LEVEL_1K Hs Hwf Hi).
Qed.

Lemma caller_succeeds_iff_witness :
  exists lvl,
    next_chunk_level_for ReflectionMetaspaceType true 40 = Ret lvl.
Proof.
  apply (caller_succeeds_iff ReflectionMetaspaceType true 40).
  split; [reflexivity | lia].
Defined.

(** X10: every sequence the lookup hands out has reached its plateau
    by the fifth chunk: for a space type of the switch and either class
    flag there is one level that is returned for [num_allocated = 4]
    and for every larger [num_allocated], and it is the last entry of
    the array of the object the lookup hands out. *)
Theorem plateau_by_fifth_chunk
  (space_type : MetaspaceType) (is_class : bool) (num_allocated : Z) :
  recognized space_type = true -> 4 <= num_allocated ->
  exists lvl s,
    next_chunk_level_for space_type is_class num_allocated = Ret lvl
    /\ next_chunk_level_for space_type is_class 4 = Ret lvl
    /\ sequence_for space_type is_class = Ret s
    /\ last (ConstantChunkAllocSequence._entries s) CHUNK_LEVEL_4M = lvl.
Proof.
  intros Hrec Hi.
  destruct space_type; try discriminate Hrec; destruct is_class.
  - exists CHUNK_LEVEL_16K. eexists.
    split; [plateau_at 4|]. repeat split; reflexivity.
  - exists CHUNK_LEVEL_16K. eexists.
    split; [plateau_at 4|]. repeat split; reflexivity.
  - exists CHUNK_LEVEL_1M. eexists.
    split; [plateau_at 1|]. repeat split; reflexivity.
  - exists CHUNK_LEVEL_1M. eexists.
    split; [plateau_at 1|]. repeat split; reflexivity.
  - exists CHUNK_LEVEL_1K. eexists.
    split; [plateau_at 0|]. repeat split; reflexivity.
  - exists CHUNK_LEVEL_1K. eexists.
    split; [plateau_at 0|]. repeat split; reflexivity.
  - exists CHUNK_LEVEL_1K. eexists.
    split; [plateau_at 0|]. repeat split; reflexivity.
  - exists CHUNK_LEVEL_1K. eexists.
    split; [plateau_at 1|]. repeat split; reflexivity.
Qed.

Lemma plateau_by_fifth_chunk_witness :
  next_chunk_level_for StandardMetaspaceType true 1000
  = Ret CHUNK_LEVEL_16K
  /\ next_chunk_level_for StandardMetaspaceType true 4
     = Ret CHUNK_LEVEL_16K.
Proof.
  destruct (plateau_by_fifth_chunk StandardMetaspaceType true 1000)
    as [lvl [s [Hlate [Hfifth [_ Hlast]]]]]; [reflexivity | lia |].
  assert (Hlvl : lvl = CHUNK_LEVEL_16K).
  { assert (H4 : next_chunk_level_for StandardMetaspaceType true 4
                 = Ret CHUNK_LEVEL_16K) by reflexivity.
    rewrite H4 in Hfifth. injection Hfifth as <-. reflexivity. }
  rewrite Hlvl in Hlate, Hfifth.
  split; [exact Hlate | exact Hfifth].
Defined.

(** X11: the boot class loader gets large chunks, beyond the 64K the
    source gives as the typical commit granule size: with either class
    flag and at every count from 0 on its level is larger than 64K, and
    so is every entry of the boot class array. *)
Theorem boot_chunks_beyond_granule (is_class : bool) (num_allocated : Z) :
  0 <= num_allocated ->
  (exists lvl,
     next_chunk_level_for BootMetaspaceType is_class num_allocated = Ret lvl
     /\ 64 * K < byte_size lvl)
  /\ Forall (fun l => 64 * K < byte_size l) g_sequ_boot_class.
Proof.
  intros Hi. split.
  - destruct (Z.eq_dec num_allocated 0) as [->|Hpos].
    + exists CHUNK_LEVEL_4M. split; [destruct is_class|]; reflexivity.
    + exists CHUNK_LEVEL_1M. split; [plateau_at 1|reflexivity].
  - repeat constructor.
Qed.

Lemma boot_chunks_beyond_granule_witness :
  exists lvl,
    next_chunk_level_for BootMetaspaceType true 3 = Ret lvl
    /\ 64 * K < byte_size lvl.
Proof.
  apply (boot_chunks_beyond_granule true 3). lia.
Defined.
